(** * The Kubernetes API-server compliance check

    A shallow embedding of [pkg/compliance/checks/kubeapiserver_check.go]:
    construction of the check ([newKubeapiserverCheck]), the query dispatch
    and document loop ([Run]) and the per-document field extraction
    ([reportResource]).

    Go strings are [string]; [compliance.KVMap] is a finite map from string
    to string; the calls that leave the check (the two cluster API
    operations and [c.report]) are recorded, in order, in a trace that the
    computation carries along with its result or error. *)

From stdpp Require Import base option list strings gmap fin_maps.

Local Open Scope string_scope.
Local Open Scope list_scope.

(** ** Data model *)

(** [schema.GroupVersionResource], built by [Run] from the resource. *)
Module GroupVersionResource.
Record t : Type := Build { Group : string; Version : string; Resource : string }.
End GroupVersionResource.

(** [schema.GroupVersionKind], as a document describes itself. *)
Module GroupVersionKind.
Record t : Type := Build { Group : string; Version : string; Kind : string }.
End GroupVersionKind.

(** [compliance.ReportedField]: one extraction rule. [Kind] is a
    [compliance.PropertyKind], a string type. *)
Module ReportedField.
Record t : Type := Build {
  Property : string;
  Kind : string;
  As : string;
  Value : string
}.
End ReportedField.

(** [compliance.KubernetesAPIRequest]. *)
Module APIRequest.
Record t : Type := Build { Verb : string; ResourceName : string }.
End APIRequest.

(** [compliance.KubernetesResource]. *)
Module KubernetesResource.
Record t : Type := Build {
  Kind : string;
  Group : string;
  Version : string;
  Namespace : string;
  APIRequest : APIRequest.t;
  Report : list ReportedField.t
}.

Definition setVersion (v : string) (r : t) : t :=
  Build (Kind r) (Group r) v (Namespace r) (APIRequest r) (Report r).
End KubernetesResource.

(** The part of [baseCheck] this file reads. *)
Record baseCheck : Type := { ruleID : string }.

(** The five keys of lines 27-33. *)
Definition kubeResourceNameKey : string := "kube_resource_name".
Definition kubeResourceGroupKey : string := "kube_resource_group".
Definition kubeResourceVersionKey : string := "kube_resource_version".
Definition kubeResourceNamespaceKey : string := "kube_resource_namespace".
Definition kubeResourceKindKey : string := "kube_resource_kind".

Definition metadataKeys : list string :=
  [kubeResourceKindKey; kubeResourceGroupKey; kubeResourceVersionKey;
   kubeResourceNamespaceKey; kubeResourceNameKey].

(** [kubeDynamic.ResourceInterface]: the resource reference, scoped to a
    namespace by [resourceDef.Namespace(ns)] or left as [resourceDef]. *)
Record ResourceInterface : Type := {
  resourceSchema : GroupVersionResource.t;
  scope : option string
}.

(** One error value per [fmt.Errorf] of the file, carrying the arguments
    of its format string. *)
Inductive error : Type :=
| ErrResourceKindEmpty (rule : string)
| ErrActionVerbEmpty (rule : string)
| ErrGetWithoutResourceName (rule : string)
| ErrGet (gvr : GroupVersionResource.t) (ns name err : string)
| ErrList (gvr : GroupVersionResource.t) (ns name err : string)
| ErrJSONQuery (property : string) (gvk : GroupVersionKind.t) (ns name err : string)
| ErrUnsupportedKind (kind : string).

(** The names the specification gives to these errors. *)
Inductive ErrorClass : Type :=
| ConfigurationError
| InvalidRequestError
| QueryError
| ExtractionError
| UnsupportedRuleError.

Definition errorClass (e : error) : ErrorClass :=
  match e with
  | ErrResourceKindEmpty _ | ErrActionVerbEmpty _ => ConfigurationError
  | ErrGetWithoutResourceName _ => InvalidRequestError
  | ErrGet _ _ _ _ | ErrList _ _ _ _ => QueryError
  | ErrJSONQuery _ _ _ _ _ => ExtractionError
  | ErrUnsupportedKind _ => UnsupportedRuleError
  end.

(** ** What the file takes from other packages

    [unstructured.Unstructured] and its accessors come from the Kubernetes
    libraries, [json.RunSingleOutput] and [compliance.PropertyKindJSONQuery]
    from packages of the agent that this file only calls. *)
Class Externals : Type := {
  Unstructured : Type;
  Content : Type;
  Object : Unstructured -> Content;
  GetGroupVersionKind : Unstructured -> GroupVersionKind.t;
  GetNamespace : Unstructured -> string;
  GetName : Unstructured -> string;
  RunSingleOutput : string -> Content -> string * bool * option string;
  PropertyKindJSONQuery : string
}.

Section Check.
Context `{E : Externals}.

(** [kubeDynamic.Interface], reduced to the two operations [Run] uses
    on a resource reference; an API error is its message. *)
Record kubeClient : Type := {
  Get : ResourceInterface -> string -> string + Unstructured;
  List : ResourceInterface -> string + list Unstructured
}.

Record kubeApiserverCheck : Type := {
  base : baseCheck;
  client : kubeClient;
  kubeResource : KubernetesResource.t
}.

(** Calls that leave the check. *)
Inductive event : Type :=
| EvGet (api : ResourceInterface) (name : string)
| EvList (api : ResourceInterface)
| EvReport (tags : list string) (kv : gmap string string).

(** A computation with a trace of calls and a result or an error. *)
Definition M (A : Type) : Type := (list event * (error + A))%type.

Definition ret {A} (x : A) : M A := ([], inr x).
Definition fail {A} (e : error) : M A := ([], inl e).
Definition emit (ev : event) : M unit := ([ev], inr tt).
Definition bind {A B} (m : M A) (k : A -> M B) : M B :=
  match m with
  | (t, inl e) => (t, inl e)
  | (t, inr x) => let '(t', r) := k x in (t ++ t', r)
  end.

Definition trace {A} (m : M A) : list event := fst m.
Definition outcome {A} (m : M A) : error + A := snd m.

#[export] Instance M_ret : MRet M := @ret.
#[export] Instance M_bind : MBind M := fun A B k m => bind m k.

(** *** Construction (lines 35-55) *)
Definition newKubeapiserverCheck (b : baseCheck) (r : KubernetesResource.t)
    (k : kubeClient) : error + kubeApiserverCheck :=
  if Nat.eqb (String.length (KubernetesResource.Kind r)) 0 then
    inl (ErrResourceKindEmpty (ruleID b))
  else if Nat.eqb (String.length (APIRequest.Verb (KubernetesResource.APIRequest r))) 0 then
    inl (ErrActionVerbEmpty (ruleID b))
  else if Nat.eqb (String.length (KubernetesResource.Version r)) 0 then
    inr {| base := b; client := k;
           kubeResource := KubernetesResource.setVersion "v1" r |}
  else
    inr {| base := b; client := k; kubeResource := r |}.

(** *** One rule against one document (body of the loop, lines 107-129) *)
Definition reportName (field : ReportedField.t) : string :=
  if Nat.ltb 0 (String.length (ReportedField.As field))
  then ReportedField.As field else ReportedField.Property field.

Definition reportValue (field : ReportedField.t) (extracted : string) : string :=
  if Nat.ltb 0 (String.length (ReportedField.Value field))
  then ReportedField.Value field else extracted.

Definition reportField (field : ReportedField.t) (p : Unstructured)
    (kv : gmap string string) : error + gmap string string :=
  if String.eqb (ReportedField.Kind field) PropertyKindJSONQuery then
    match RunSingleOutput (ReportedField.Property field) (Object p) with
    | (_, _, Some err) =>
        inl (ErrJSONQuery (ReportedField.Property field) (GetGroupVersionKind p)
               (GetNamespace p) (GetName p) err)
    | (_, false, None) => inr kv
    | (v, true, None) => inr (<[reportName field := reportValue field v]> kv)
    end
  else inl (ErrUnsupportedKind (ReportedField.Kind field)).

(** The loop over [c.kubeResource.Report] (lines 106-130): the first
    error leaves the function. *)
Fixpoint reportFields (fields : list ReportedField.t) (p : Unstructured)
    (kv : gmap string string) : error + gmap string string :=
  match fields with
  | [] => inr kv
  | field :: rest =>
      match reportField field p kv with
      | inl e => inl e
      | inr kv' => reportFields rest p kv'
      end
  end.

(** Lines 133-137, in the order of the assignments. *)
Definition injectMetadata (p : Unstructured) (kv : gmap string string)
    : gmap string string :=
  let kv := <[kubeResourceKindKey := GroupVersionKind.Kind (GetGroupVersionKind p)]> kv in
  let kv := <[kubeResourceGroupKey := GroupVersionKind.Group (GetGroupVersionKind p)]> kv in
  let kv := <[kubeResourceVersionKey := GroupVersionKind.Version (GetGroupVersionKind p)]> kv in
  let kv := <[kubeResourceNamespaceKey := GetNamespace p]> kv in
  <[kubeResourceNameKey := GetName p]> kv.

(** The record [reportResource] hands over once the rules are through
    (lines 132-138). *)
Definition finalRecord (p : Unstructured) (kv : gmap string string)
    : gmap string string :=
  if Nat.ltb 0 (size kv) then injectMetadata p kv else kv.

(** *** [reportResource] (lines 103-142) *)
Definition reportResource (c : kubeApiserverCheck) (p : Unstructured) : M unit :=
  match reportFields (KubernetesResource.Report (kubeResource c)) p ∅ with
  | inl e => fail e
  | inr kv => emit (EvReport [] (finalRecord p kv)) ;; ret tt
  end.

(** The loop over the documents (lines 94-98). *)
Fixpoint reportResources (c : kubeApiserverCheck) (resources : list Unstructured)
    : M unit :=
  match resources with
  | [] => ret tt
  | resource :: rest => reportResource c resource ;; reportResources c rest
  end.

(** The resource reference of lines 60-72. *)
Definition resourceAPI (c : kubeApiserverCheck) : ResourceInterface :=
  let r := kubeResource c in
  let gvr := {| GroupVersionResource.Group := KubernetesResource.Group r;
                GroupVersionResource.Resource := KubernetesResource.Kind r;
                GroupVersionResource.Version := KubernetesResource.Version r |} in
  if Nat.ltb 0 (String.length (KubernetesResource.Namespace r))
  then {| resourceSchema := gvr; scope := Some (KubernetesResource.Namespace r) |}
  else {| resourceSchema := gvr; scope := None |}.

(** The switch on the verb (lines 74-91). *)
Definition fetchResources (c : kubeApiserverCheck) : M (list Unstructured) :=
  let r := kubeResource c in
  let api := resourceAPI c in
  let req := KubernetesResource.APIRequest r in
  if String.eqb (APIRequest.Verb req) "get" then
    if Nat.eqb (String.length (APIRequest.ResourceName req)) 0 then
      fail (ErrGetWithoutResourceName (ruleID (base c)))
    else
      emit (EvGet api (APIRequest.ResourceName req)) ;;
      match Get (client c) api (APIRequest.ResourceName req) with
      | inl err => fail (ErrGet (resourceSchema api) (KubernetesResource.Namespace r)
                           (APIRequest.ResourceName req) err)
      | inr resource => ret [resource]
      end
  else if String.eqb (APIRequest.Verb req) "list" then
    emit (EvList api) ;;
    match List (client c) api with
    | inl err => fail (ErrList (resourceSchema api) (KubernetesResource.Namespace r)
                         (APIRequest.ResourceName req) err)
    | inr items => ret items
    end
  else ret [].

(** *** [Run] (lines 57-101) *)
Definition Run (c : kubeApiserverCheck) : M unit :=
  resources ← fetchResources c;
  reportResources c resources.

End Check.

(** The records among the calls of a trace that go to [c.report], and the
    calls that go to the cluster API. *)
Definition reportCalls (t : list event) : list (gmap string string) :=
  omap (fun ev => match ev with EvReport _ kv => Some kv | _ => None end) t.

Definition apiCalls (t : list event) : list event :=
  omap (fun ev => match ev with EvReport _ _ => None | _ => Some ev end) t.

(** Modelled from the spec: [baseCheck.report], the method that [c.report]
    on line 140 calls, belongs to [baseCheck] and is not in this file. The
    spec has a record handed to the external reporter when it is
    non-empty and discarded silently, with no report call, when it is
    empty (section 4.4, step 2d; section 6, reporter boundary). The
    result lists the calls made to the external reporter. *)
Definition report (b : baseCheck) (tags : list string) (kv : gmap string string)
    : list (list string * gmap string string) :=
  if Nat.ltb 0 (size kv) then [(tags, kv)] else [].

(** The calls that reach the external reporter through the [c.report]
    calls of a trace. *)
Definition reporterCalls (b : baseCheck) (t : list event)
    : list (list string * gmap string string) :=
  flat_map (fun ev => match ev with
                      | EvReport tags kv => report b tags kv
                      | _ => []
                      end) t.

(** ** A small cluster to run the check on

    Documents are flat: the content is a list of paths, each with a
    scalar or with a value the query engine cannot render. The engine
    looks a path up in the content; the empty path is malformed. *)
Module Fixture.
Record doc : Type := {
  gvk : GroupVersionKind.t;
  namespace : string;
  name : string;
  content : list (string * option string)
}.

Fixpoint assoc (q : string) (o : list (string * option string))
    : option (option string) :=
  match o with
  | [] => None
  | (k, v) :: rest => if String.eqb k q then Some v else assoc q rest
  end.

Definition runQuery (q : string) (o : list (string * option string))
    : string * bool * option string :=
  if String.eqb q "" then ("", false, Some "malformed path")
  else match assoc q o with
       | Some (Some v) => (v, true, None)
       | Some None => ("", false, Some "type mismatch")
       | None => ("", false, None)
       end.

Definition flat : Externals := {|
  Unstructured := doc;
  Content := list (string * option string);
  Object := content;
  GetGroupVersionKind := gvk;
  GetNamespace := namespace;
  GetName := name;
  RunSingleOutput := runQuery;
  PropertyKindJSONQuery := "jsonquery"
|}.

Definition podKind : GroupVersionKind.t :=
  GroupVersionKind.Build "" "v1" "Pod".

Definition nginx : doc :=
  {| gvk := podKind; namespace := "default"; name := "nginx";
     content := [("spec.containers.0.image", Some "nginx:1.21");
                 ("status.phase", Some "baz")] |}.

Definition redis : doc :=
  {| gvk := podKind; namespace := "default"; name := "redis";
     content := [("spec.containers.0.image", Some "redis:6");
                 ("status.phase", Some "Running")] |}.

Definition broken : doc :=
  {| gvk := podKind; namespace := "default"; name := "broken";
     content := [("status.phase", None)] |}.

(** A client that serves a fixed list of documents. *)
Definition getFrom (docs : list doc) (_ : ResourceInterface) (n : string)
    : string + doc :=
  match List.find (fun d => String.eqb (name d) n) docs with
  | Some d => inr d
  | None => inl "not found"
  end.

Definition serving (docs : list doc) : kubeClient (E := flat) :=
  {| Get := getFrom docs : _ -> _ -> string + @Unstructured flat;
     List := fun _ => inr docs |}.

Definition jsonQuery (property as_ value : string) : ReportedField.t :=
  ReportedField.Build property "jsonquery" as_ value.

Definition pods (verb resourceName : string) (report : list ReportedField.t)
    : KubernetesResource.t :=
  KubernetesResource.Build "pods" "" "v1" "" (APIRequest.Build verb resourceName) report.

Definition checkOf (docs : list doc) (r : KubernetesResource.t)
    : kubeApiserverCheck (E := flat) :=
  {| base := {| ruleID := "rule-1" |}; client := serving docs; kubeResource := r |}.

Definition podsAPI : ResourceInterface :=
  {| resourceSchema := GroupVersionResource.Build "" "v1" "pods"; scope := None |}.

Definition rule1 : baseCheck := {| ruleID := "rule-1" |}.

(** What the query on [broken] fails with. *)
Definition phaseError : error :=
  ErrJSONQuery "status.phase" podKind "default" "broken" "type mismatch".
(** A client whose calls are all refused, and a check that uses it. *)
Definition refuse (_ : ResourceInterface) (_ : string) : string + doc :=
  inl "forbidden".

Definition refusing : kubeClient (E := flat) :=
  {| Get := refuse : _ -> _ -> string + @Unstructured flat;
     List := fun _ => inl "forbidden" |}.

Definition refusedCheck (r : KubernetesResource.t) : kubeApiserverCheck (E := flat) :=
  {| base := rule1; client := refusing; kubeResource := r |}.

Definition podsGVR : GroupVersionResource.t :=
  GroupVersionResource.Build "" "v1" "pods".

(** Declarations and checks for the construction and listing cases. *)
Definition defaultPods : KubernetesResource.t :=
  KubernetesResource.Build "pods" "" "v1" "default" (APIRequest.Build "list" "ignored")
    [jsonQuery "spec.containers.0.image" "image" ""].

Definition systemPod : KubernetesResource.t :=
  KubernetesResource.Build "pods" "" "" "kube-system" (APIRequest.Build "get" "nginx") [].

Definition systemPodCheck : kubeApiserverCheck (E := flat) :=
  {| base := rule1; client := serving [];
     kubeResource := KubernetesResource.setVersion "v1" systemPod |}.

Definition nothingDeclared : KubernetesResource.t :=
  KubernetesResource.Build "" "" "" "" (APIRequest.Build "" "") [].

Definition deployments : KubernetesResource.t :=
  KubernetesResource.Build "deployments" "apps" "" "kube-system"
    (APIRequest.Build "list" "") [].

Definition deploymentsCheck : kubeApiserverCheck (E := flat) :=
  {| base := rule1; client := serving [];
     kubeResource := KubernetesResource.setVersion "v1" deployments |}.
End Fixture.

(** ** Properties *)

Lemma length_zero_iff (s : string) : String.length s = 0 <-> s = "".
Proof. destruct s; simpl; split; intros H; congruence. Qed.

Lemma length_eqb_zero (s : string) : Nat.eqb (String.length s) 0 = true <-> s = "".
Proof. rewrite Nat.eqb_eq. apply length_zero_iff. Qed.

Lemma length_eqb_nonzero (s : string) : s <> "" -> Nat.eqb (String.length s) 0 = false.
Proof.
  intros H. destruct (Nat.eqb _ 0) eqn:Heq; [|done].
  apply length_eqb_zero in Heq. done.
Qed.

Lemma length_ltb_zero (s : string) : Nat.ltb 0 (String.length s) = true <-> s <> "".
Proof. destruct s; simpl; split; intros H; try done. Qed.

Lemma not_metadata_key (k : string) :
  forallb (fun m => negb (String.eqb k m)) metadataKeys = true -> k ∉ metadataKeys.
Proof.
  intros Hall Hin. apply list_elem_of_In in Hin.
  rewrite forallb_forall in Hall. specialize (Hall _ Hin).
  by rewrite String.eqb_refl in Hall.
Qed.

Section Construction.
Context `{E : Externals}.
Implicit Types (b : baseCheck) (r : KubernetesResource.t) (k : kubeClient).

Lemma newKubeapiserverCheck_ok b r k :
  KubernetesResource.Kind r <> "" ->
  APIRequest.Verb (KubernetesResource.APIRequest r) <> "" ->
  newKubeapiserverCheck b r k =
    inr {| base := b; client := k;
           kubeResource :=
             if Nat.eqb (String.length (KubernetesResource.Version r)) 0
             then KubernetesResource.setVersion "v1" r else r |}.
Proof.
  intros Hk Hv. unfold newKubeapiserverCheck.
  rewrite (length_eqb_nonzero _ Hk), (length_eqb_nonzero _ Hv).
  by destruct (Nat.eqb _ 0).
Qed.

(** C6. Construction fails with a [ConfigurationError] when the kind is
    empty, and when the verb is empty; when both are non-empty it
    succeeds, whatever the other fields hold. *)
Theorem construction_validates_kind_and_verb b r k :
  (KubernetesResource.Kind r = "" ->
     exists e, newKubeapiserverCheck b r k = inl e /\ errorClass e = ConfigurationError) /\
  (APIRequest.Verb (KubernetesResource.APIRequest r) = "" ->
     exists e, newKubeapiserverCheck b r k = inl e /\ errorClass e = ConfigurationError) /\
  (KubernetesResource.Kind r <> "" ->
   APIRequest.Verb (KubernetesResource.APIRequest r) <> "" ->
     exists c, newKubeapiserverCheck b r k = inr c).
Proof.
  split; [|split].
  - intros Hk. exists (ErrResourceKindEmpty (ruleID b)). split; [|done].
    unfold newKubeapiserverCheck. by rewrite Hk.
  - intros Hv. unfold newKubeapiserverCheck. rewrite Hv. simpl.
    destruct (Nat.eqb _ 0); eexists; split; done.
  - intros Hk Hv. eexists. by apply newKubeapiserverCheck_ok.
Qed.

(** C7. With kind and verb non-empty, construction succeeds; an empty
    version becomes ["v1"], a non-empty one is kept, and the version of
    the constructed check is never empty. *)
Theorem construction_defaults_version b r k :
  KubernetesResource.Kind r <> "" ->
  APIRequest.Verb (KubernetesResource.APIRequest r) <> "" ->
  exists c, newKubeapiserverCheck b r k = inr c /\
    (KubernetesResource.Version r = "" ->
       KubernetesResource.Version (kubeResource c) = "v1") /\
    (KubernetesResource.Version r <> "" ->
       kubeResource c = r) /\
    KubernetesResource.Version (kubeResource c) <> "".
Proof.
  intros Hk Hv. eexists. split; [by apply newKubeapiserverCheck_ok|].
  simpl. destruct (Nat.eqb _ 0) eqn:Hz.
  - apply length_eqb_zero in Hz. repeat split; try done.
  - repeat split; try done.
    + intros Hempty. apply length_eqb_zero in Hempty. congruence.
    + intros Hempty. apply length_eqb_zero in Hempty. congruence.
Qed.
End Construction.

Section Extraction.
Context `{E : Externals}.
Implicit Types (field : ReportedField.t) (fields : list ReportedField.t).
Implicit Types (p : Unstructured) (kv : gmap string string).

Lemma reportName_spec field :
  reportName field =
    if decide (ReportedField.As field = "") then ReportedField.Property field
    else ReportedField.As field.
Proof. unfold reportName. by destruct (ReportedField.As field). Qed.

Lemma reportValue_spec field v :
  reportValue field v =
    if decide (ReportedField.Value field = "") then v
    else ReportedField.Value field.
Proof. unfold reportValue. by destruct (ReportedField.Value field). Qed.

Lemma reportField_found field p kv v :
  ReportedField.Kind field = PropertyKindJSONQuery ->
  RunSingleOutput (ReportedField.Property field) (Object p) = (v, true, None) ->
  reportField field p kv = inr (<[reportName field := reportValue field v]> kv).
Proof.
  intros Hk Hq. unfold reportField. rewrite Hk, String.eqb_refl, Hq. done.
Qed.

Lemma reportField_not_found field p kv v :
  ReportedField.Kind field = PropertyKindJSONQuery ->
  RunSingleOutput (ReportedField.Property field) (Object p) = (v, false, None) ->
  reportField field p kv = inr kv.
Proof.
  intros Hk Hq. unfold reportField. rewrite Hk, String.eqb_refl, Hq. done.
Qed.

Lemma reportField_query_error field p kv v found err :
  ReportedField.Kind field = PropertyKindJSONQuery ->
  RunSingleOutput (ReportedField.Property field) (Object p) = (v, found, Some err) ->
  reportField field p kv =
    inl (ErrJSONQuery (ReportedField.Property field) (GetGroupVersionKind p)
           (GetNamespace p) (GetName p) err).
Proof.
  intros Hk Hq. unfold reportField. rewrite Hk, String.eqb_refl, Hq.
  by destruct found.
Qed.

Lemma reportField_unsupported field p kv :
  ReportedField.Kind field <> PropertyKindJSONQuery ->
  reportField field p kv = inl (ErrUnsupportedKind (ReportedField.Kind field)).
Proof.
  intros Hk. unfold reportField.
  destruct (String.eqb _ _) eqn:Heq; [|done].
  apply String.eqb_eq in Heq. done.
Qed.

(** A rule either fails, leaves the record alone, or writes its own key. *)
Lemma reportField_cases field p kv :
  (exists e, reportField field p kv = inl e /\
     (errorClass e = ExtractionError \/ errorClass e = UnsupportedRuleError)) \/
  reportField field p kv = inr kv \/
  (exists v, reportField field p kv = inr (<[reportName field := v]> kv)).
Proof.
  unfold reportField. destruct (String.eqb _ _).
  - destruct (RunSingleOutput _ _) as [[v found] [err|]].
    + left. destruct found; (eexists; split; [done|]; by left).
    + destruct found; [right; right; by eexists | right; by left].
  - left. eexists. split; [done|]. by right.
Qed.

Lemma reportFields_app fields1 fields2 p kv :
  reportFields (fields1 ++ fields2) p kv =
    match reportFields fields1 p kv with
    | inl e => inl e
    | inr kv' => reportFields fields2 p kv'
    end.
Proof.
  revert kv. induction fields1 as [|f fs IH]; intros kv; simpl; [done|].
  destruct (reportField f p kv); [done|]. apply IH.
Qed.

Lemma reportFields_error_class fields p kv e :
  reportFields fields p kv = inl e ->
  errorClass e = ExtractionError \/ errorClass e = UnsupportedRuleError.
Proof.
  revert kv. induction fields as [|f fs IH]; intros kv; simpl; [done|].
  destruct (reportField_cases f p kv) as [(e' & -> & Hc)|[->| [v ->]]].
  - by intros [= <-].
  - apply IH.
  - apply IH.
Qed.

(** Rules that write other keys leave a key as it was. *)
Lemma reportFields_other_keys fields p kv kv' k :
  Forall (fun f => reportName f <> k) fields ->
  reportFields fields p kv = inr kv' ->
  kv' !! k = kv !! k.
Proof.
  intros Hall. revert kv. induction Hall as [|f fs Hf _ IH]; intros kv; simpl.
  - by intros [= <-].
  - destruct (reportField_cases f p kv) as [(e' & -> & _)|[->| [v ->]]].
    + done.
    + apply IH.
    + intros Hrest. rewrite (IH _ Hrest). by apply lookup_insert_ne.
Qed.

(** Rules never remove a key. *)
Lemma reportFields_keeps_keys fields p kv kv' k :
  reportFields fields p kv = inr kv' -> is_Some (kv !! k) -> is_Some (kv' !! k).
Proof.
  revert kv. induction fields as [|f fs IH]; intros kv; simpl.
  - by intros [= <-].
  - destruct (reportField_cases f p kv) as [(e' & -> & _)|[->| [v ->]]].
    + done.
    + apply IH.
    + intros Hrest Hk. apply (IH _ Hrest).
      destruct (decide (reportName f = k)) as [->|Hne].
      * rewrite lookup_insert_eq. by eexists.
      * by rewrite lookup_insert_ne.
Qed.

Lemma reportFields_all_not_found fields p kv :
  Forall (fun f => ReportedField.Kind f = PropertyKindJSONQuery /\
            exists v, RunSingleOutput (ReportedField.Property f) (Object p)
                      = (v, false, None)) fields ->
  reportFields fields p kv = inr kv.
Proof.
  induction 1 as [|f fs [Hk [v Hq]] _ IH]; simpl; [done|].
  by rewrite (reportField_not_found _ _ _ _ Hk Hq).
Qed.

(** *** The metadata keys *)
Lemma injectMetadata_lookups p kv :
  injectMetadata p kv !! kubeResourceKindKey
    = Some (GroupVersionKind.Kind (GetGroupVersionKind p)) /\
  injectMetadata p kv !! kubeResourceGroupKey
    = Some (GroupVersionKind.Group (GetGroupVersionKind p)) /\
  injectMetadata p kv !! kubeResourceVersionKey
    = Some (GroupVersionKind.Version (GetGroupVersionKind p)) /\
  injectMetadata p kv !! kubeResourceNamespaceKey = Some (GetNamespace p) /\
  injectMetadata p kv !! kubeResourceNameKey = Some (GetName p).
Proof.
  unfold injectMetadata. repeat split.
  all: repeat (rewrite lookup_insert_ne by done); by rewrite lookup_insert_eq.
Qed.

Lemma injectMetadata_other p kv k :
  k ∉ metadataKeys -> injectMetadata p kv !! k = kv !! k.
Proof.
  intros Hk. unfold injectMetadata, metadataKeys in *.
  repeat (rewrite lookup_insert_ne; [|intros <-; apply Hk; set_solver]).
  done.
Qed.

Lemma injectMetadata_same_at_keys p kv kv' k :
  k ∈ metadataKeys -> injectMetadata p kv !! k = injectMetadata p kv' !! k.
Proof.
  intros Hk.
  destruct (injectMetadata_lookups p kv) as (H1 & H2 & H3 & H4 & H5).
  destruct (injectMetadata_lookups p kv') as (H1' & H2' & H3' & H4' & H5').
  unfold metadataKeys in Hk.
  repeat (apply elem_of_cons in Hk as [->|Hk]; [congruence|]).
  by apply elem_of_nil in Hk.
Qed.

Lemma finalRecord_empty p : finalRecord p ∅ = ∅.
Proof. unfold finalRecord. by rewrite map_size_empty. Qed.

Lemma finalRecord_nonempty p kv : kv <> ∅ -> finalRecord p kv = injectMetadata p kv.
Proof.
  intros Hne. unfold finalRecord.
  apply map_size_non_empty_iff in Hne.
  destruct (size kv); [done|done].
Qed.

Lemma finalRecord_empty_iff p kv : finalRecord p kv = ∅ <-> kv = ∅.
Proof.
  split.
  - intros Hf. destruct (decide (kv = ∅)) as [|Hne]; [done|].
    rewrite (finalRecord_nonempty _ _ Hne) in Hf.
    destruct (injectMetadata_lookups p kv) as (_ & _ & _ & _ & Hn).
    rewrite Hf, lookup_empty in Hn. done.
  - intros ->. apply finalRecord_empty.
Qed.
End Extraction.

Section Running.
Context `{E : Externals}.
Implicit Types (c : kubeApiserverCheck) (p d : Unstructured).
Implicit Types (kv : gmap string string) (field : ReportedField.t).

Local Abbreviation rules c := (KubernetesResource.Report (kubeResource c)).
Local Abbreviation verb c := (APIRequest.Verb (KubernetesResource.APIRequest (kubeResource c))).
Local Abbreviation resourceName c :=
  (APIRequest.ResourceName (KubernetesResource.APIRequest (kubeResource c))).

Lemma bind_ok {A B} (t : list event) (x : A) (k : A -> M B) :
  (t, inr x) ≫= k = (t ++ trace (k x), outcome (k x)).
Proof. unfold mbind, M_bind, bind, trace, outcome. by destruct (k x). Qed.

Lemma bind_error {A B} (t : list event) (e : error) (k : A -> M B) :
  (t, inl e) ≫= k = (t, inl e).
Proof. done. Qed.

Lemma reportResource_ok c p kv :
  reportFields (rules c) p ∅ = inr kv ->
  reportResource c p = ([EvReport [] (finalRecord p kv)], inr tt).
Proof. intros H. unfold reportResource. by rewrite H. Qed.

Lemma reportResource_error c p e :
  reportFields (rules c) p ∅ = inl e ->
  reportResource c p = ([], inl e).
Proof. intros H. unfold reportResource. by rewrite H. Qed.

Lemma bind_ret_l {A B} (x : A) (k : A -> M B) : ret x ≫= k = k x.
Proof. unfold ret. rewrite bind_ok. by destruct (k x). Qed.

Lemma bind_assoc {A B C} (m : M A) (f : A -> M B) (g : B -> M C) :
  (m ≫= f) ≫= g = m ≫= fun x => f x ≫= g.
Proof.
  destruct m as [t [e|x]]; [done|].
  rewrite !bind_ok. destruct (f x) as [t' [e'|y]]; [done|].
  cbn [trace outcome fst snd]. rewrite !bind_ok.
  cbn [trace outcome fst snd]. by rewrite app_assoc.
Qed.

Lemma reportResources_app c (ps qs : list Unstructured) :
  reportResources c (ps ++ qs) = reportResources c ps ≫= fun _ => reportResources c qs.
Proof.
  induction ps as [|p ps IH]; cbn [reportResources app].
  - by rewrite bind_ret_l.
  - by rewrite IH, bind_assoc.
Qed.

(** Documents whose rules all evaluate are reported one by one, in order. *)
Lemma reportResources_all_ok c (ps : list Unstructured) (kvs : list (gmap string string)) :
  Forall2 (fun p kv => reportFields (rules c) p ∅ = inr kv) ps kvs ->
  reportResources c ps =
    (zip_with (fun p kv => EvReport [] (finalRecord p kv)) ps kvs, inr tt).
Proof.
  induction 1 as [|p kv ps kvs Hp _ IH]; simpl; [done|].
  by rewrite (reportResource_ok _ _ _ Hp), bind_ok, IH.
Qed.

Lemma reportCalls_reports (ps : list Unstructured) (kvs : list (gmap string string)) :
  reportCalls (zip_with (fun p kv => EvReport [] (finalRecord p kv)) ps kvs)
    = zip_with finalRecord ps kvs.
Proof.
  revert kvs. induction ps as [|p ps IH]; intros [|kv kvs]; simpl; try done.
  unfold reportCalls in *. simpl. by rewrite IH.
Qed.

Lemma reportCalls_app (t1 t2 : list event) :
  reportCalls (t1 ++ t2) = reportCalls t1 ++ reportCalls t2.
Proof. apply omap_app. Qed.

(** The query phase never reports. *)
Lemma fetchResources_no_report c : reportCalls (trace (fetchResources c)) = [].
Proof.
  unfold fetchResources.
  destruct (String.eqb _ "get").
  - destruct (Nat.eqb _ 0); [done|].
    unfold emit. rewrite bind_ok. by destruct (Get _ _ _).
  - destruct (String.eqb _ "list"); [|done].
    unfold emit. rewrite bind_ok. by destruct (List _ _).
Qed.

(** A document whose rules all evaluate without error is passed to
    [c.report] exactly once, whether or not a rule yielded a value; the
    record passed is empty exactly when the assembled record is. *)
Theorem reportResource_reports_every_record c p kv :
  reportFields (rules c) p ∅ = inr kv ->
  reportResource c p = ([EvReport [] (finalRecord p kv)], inr tt) /\
  reportCalls (trace (reportResource c p)) = [finalRecord p kv] /\
  (finalRecord p kv = ∅ <-> kv = ∅) /\
  (kv = ∅ -> reportCalls (trace (reportResource c p)) = [∅]).
Proof.
  intros H. rewrite (reportResource_ok _ _ _ H). repeat split.
  - apply finalRecord_empty_iff.
  - apply finalRecord_empty_iff.
  - intros ->. simpl. by rewrite finalRecord_empty.
Qed.

(** C2. When the rules evaluate on the documents before document [d]
    and fail on [d], [Run] ends with that error, an [ExtractionError] or
    an [UnsupportedRuleError]: the trace holds the query and one report
    for each earlier document, none for [d] or a later one. *)
Theorem Run_aborts_at_first_failing_document c
    (t0 : list event) (pre post : list Unstructured) d
    (kvs : list (gmap string string)) (e : error) :
  fetchResources c = (t0, inr (pre ++ d :: post)) ->
  Forall2 (fun p kv => reportFields (rules c) p ∅ = inr kv) pre kvs ->
  reportFields (rules c) d ∅ = inl e ->
  Run c = (t0 ++ zip_with (fun p kv => EvReport [] (finalRecord p kv)) pre kvs, inl e) /\
  reportCalls (trace (Run c)) = zip_with finalRecord pre kvs /\
  length (reportCalls (trace (Run c))) = length pre /\
  (errorClass e = ExtractionError \/ errorClass e = UnsupportedRuleError).
Proof.
  intros Hq Hpre Hd.
  assert (Hrun : Run c =
    (t0 ++ zip_with (fun p kv => EvReport [] (finalRecord p kv)) pre kvs, inl e)).
  { unfold Run. rewrite Hq, bind_ok, reportResources_app.
    rewrite (reportResources_all_ok _ _ _ Hpre), bind_ok. simpl.
    rewrite (reportResource_error _ _ _ Hd). simpl.
    unfold trace, outcome. simpl. by rewrite app_nil_r. }
  rewrite Hrun. unfold trace. simpl.
  assert (Ht0 : reportCalls t0 = []).
  { pose proof (fetchResources_no_report c) as Hn. by rewrite Hq in Hn. }
  rewrite reportCalls_app, Ht0, reportCalls_reports. simpl.
  repeat split.
  - rewrite length_zip_with. apply Forall2_length in Hpre. lia.
  - by apply (reportFields_error_class _ _ _ _ Hd).
Qed.

(** C3. With a verb that is neither ["get"] nor ["list"], [Run] makes
    no API call, has no document to work on, reports nothing and
    returns without error. *)
Theorem Run_unknown_verb c :
  verb c <> "get" -> verb c <> "list" ->
  fetchResources c = ([], inr []) /\
  Run c = ([], inr tt) /\
  apiCalls (trace (Run c)) = [] /\
  reportCalls (trace (Run c)) = [].
Proof.
  intros Hg Hl.
  assert (Hf : fetchResources c = ([], inr [])).
  { unfold fetchResources.
    destruct (String.eqb _ "get") eqn:H1; [by apply String.eqb_eq in H1|].
    destruct (String.eqb _ "list") eqn:H2; [by apply String.eqb_eq in H2|].
    done. }
  split; [done|]. unfold Run. by rewrite Hf.
Qed.

(** C5. With verb ["get"] and an empty resource name, [Run] fails with
    an [InvalidRequestError] before any API call; nothing is reported. *)
Theorem Run_get_without_resource_name c :
  verb c = "get" -> resourceName c = "" ->
  Run c = ([], inl (ErrGetWithoutResourceName (ruleID (base c)))) /\
  errorClass (ErrGetWithoutResourceName (ruleID (base c))) = InvalidRequestError /\
  apiCalls (trace (Run c)) = [] /\
  reportCalls (trace (Run c)) = [].
Proof.
  intros Hv Hn.
  assert (Hr : Run c = ([], inl (ErrGetWithoutResourceName (ruleID (base c))))).
  { unfold Run, fetchResources. by rewrite Hv, Hn. }
  by rewrite Hr.
Qed.
End Running.

Section Rules.
Context `{E : Externals}.
Implicit Types (c : kubeApiserverCheck) (p : Unstructured).
Implicit Types (kv : gmap string string) (field : ReportedField.t).

Local Abbreviation rules c := (KubernetesResource.Report (kubeResource c)).

(** C4. A [jsonQuery] rule whose path resolves writes the pair whose
    key is [As] when set and [Property] otherwise, and whose value is
    [Value] when set and the extracted value otherwise. When the rules
    of the document all evaluate, that pair is in the assembled record
    unless a later rule writes the same key, the record is reported with
    the five metadata keys, and the pair is in the reported record too
    unless its key is a metadata key. *)
Theorem resolving_rule_is_reported c p (pre post : list ReportedField.t)
    field (v : string) kv :
  rules c = pre ++ field :: post ->
  ReportedField.Kind field = PropertyKindJSONQuery ->
  RunSingleOutput (ReportedField.Property field) (Object p) = (v, true, None) ->
  reportFields (rules c) p ∅ = inr kv ->
  (forall kv0, reportField field p kv0
               = inr (<[reportName field := reportValue field v]> kv0)) /\
  reportName field =
    (if decide (ReportedField.As field = "") then ReportedField.Property field
     else ReportedField.As field) /\
  reportValue field v =
    (if decide (ReportedField.Value field = "") then v
     else ReportedField.Value field) /\
  (Forall (fun f => reportName f <> reportName field) post ->
     kv !! reportName field = Some (reportValue field v)) /\
  exists record,
    reportResource c p = ([EvReport [] record], inr tt) /\
    record !! kubeResourceKindKey
      = Some (GroupVersionKind.Kind (GetGroupVersionKind p)) /\
    record !! kubeResourceGroupKey
      = Some (GroupVersionKind.Group (GetGroupVersionKind p)) /\
    record !! kubeResourceVersionKey
      = Some (GroupVersionKind.Version (GetGroupVersionKind p)) /\
    record !! kubeResourceNamespaceKey = Some (GetNamespace p) /\
    record !! kubeResourceNameKey = Some (GetName p) /\
    (Forall (fun f => reportName f <> reportName field) post ->
     reportName field ∉ metadataKeys ->
       record !! reportName field = Some (reportValue field v)).
Proof.
  intros Hrules Hkind Hquery Hall.
  assert (Hstep : forall kv0, reportField field p kv0
                    = inr (<[reportName field := reportValue field v]> kv0))
    by (intros kv0; by apply reportField_found).
  rewrite Hrules, reportFields_app in Hall.
  destruct (reportFields pre p ∅) as [e|kv1] eqn:Hpre; [done|].
  simpl in Hall. rewrite Hstep in Hall.
  assert (Hin : is_Some (kv !! reportName field)).
  { apply (reportFields_keeps_keys _ _ _ _ _ Hall).
    rewrite lookup_insert_eq. by eexists. }
  assert (Hne : kv <> ∅).
  { intros ->. rewrite lookup_empty in Hin. by destruct Hin. }
  assert (Hlast : Forall (fun f => reportName f <> reportName field) post ->
                  kv !! reportName field = Some (reportValue field v)).
  { intros Hpost. rewrite (reportFields_other_keys _ _ _ _ _ Hpost Hall).
    apply lookup_insert_eq. }
  split; [done|]. split; [apply reportName_spec|].
  split; [apply reportValue_spec|]. split; [done|].
  exists (injectMetadata p kv).
  destruct (injectMetadata_lookups p kv) as (H1 & H2 & H3 & H4 & H5).
  repeat (split; [done|]). split.
  - rewrite <- (finalRecord_nonempty _ _ Hne). apply reportResource_ok.
    rewrite Hrules, reportFields_app, Hpre. simpl. by rewrite Hstep.
  - repeat (split; [done|]).
    intros Hpost Hmeta. rewrite injectMetadata_other by done. by apply Hlast.
Qed.

(** C8. The kind of a rule is not looked at when the check is built:
    with kind and verb non-empty, construction succeeds and keeps the
    rules as given. A rule whose kind is not [jsonQuery] fails with an
    [UnsupportedRuleError] on every document, and when the rules before
    it evaluate, [reportResource] returns that error and reports
    nothing. *)
Theorem unsupported_rule_fails_at_evaluation (b : baseCheck)
    (r : KubernetesResource.t) (k : kubeClient)
    (pre post : list ReportedField.t) field :
  KubernetesResource.Kind r <> "" ->
  APIRequest.Verb (KubernetesResource.APIRequest r) <> "" ->
  KubernetesResource.Report r = pre ++ field :: post ->
  ReportedField.Kind field <> PropertyKindJSONQuery ->
  exists c,
    newKubeapiserverCheck b r k = inr c /\
    rules c = pre ++ field :: post /\
    (forall p kv,
       reportField field p kv = inl (ErrUnsupportedKind (ReportedField.Kind field))) /\
    errorClass (ErrUnsupportedKind (ReportedField.Kind field)) = UnsupportedRuleError /\
    (forall p kv,
       reportFields pre p ∅ = inr kv ->
       reportResource c p = ([], inl (ErrUnsupportedKind (ReportedField.Kind field)))) /\
    (forall p, exists e, reportResource c p = ([], inl e)).
Proof.
  intros Hk Hv Hrules Hkind. eexists. split; [by apply newKubeapiserverCheck_ok|].
  assert (Hr : KubernetesResource.Report
                 (if Nat.eqb (String.length (KubernetesResource.Version r)) 0
                  then KubernetesResource.setVersion "v1" r else r)
               = pre ++ field :: post) by (by destruct (Nat.eqb _ 0)).
  cbn [kubeResource]. split; [done|].
  assert (Hstep : forall p kv, reportField field p kv
                    = inl (ErrUnsupportedKind (ReportedField.Kind field)))
    by (intros; by apply reportField_unsupported).
  split; [done|]. split; [done|].
  assert (Hfields : forall p, reportFields (pre ++ field :: post) p ∅ =
            match reportFields pre p ∅ with
            | inl e => inl e
            | inr _ => inl (ErrUnsupportedKind (ReportedField.Kind field))
            end).
  { intros p. rewrite reportFields_app.
    destruct (reportFields pre p ∅); [done|]. simpl. by rewrite Hstep. }
  split.
  - intros p kv Hpre. unfold reportResource. cbn [kubeResource].
    by rewrite Hr, Hfields, Hpre.
  - intros p. unfold reportResource. cbn [kubeResource].
    rewrite Hr, Hfields. destruct (reportFields pre p ∅); by eexists.
Qed.

(** C9. A [jsonQuery] rule whose query evaluates and reports not-found
    leaves the record as it is, and the rules after it are evaluated as
    if it were not there; it raises no error. *)
Theorem not_found_rule_is_skipped (pre post : list ReportedField.t) field p
    (v : string) kv :
  ReportedField.Kind field = PropertyKindJSONQuery ->
  RunSingleOutput (ReportedField.Property field) (Object p) = (v, false, None) ->
  reportField field p kv = inr kv /\
  reportFields (field :: post) p kv = reportFields post p kv /\
  reportFields (pre ++ field :: post) p kv = reportFields (pre ++ post) p kv.
Proof.
  intros Hk Hq.
  assert (Hstep : forall kv0, reportField field p kv0 = inr kv0)
    by (intros; by eapply reportField_not_found).
  split; [done|]. split.
  - simpl. by rewrite Hstep.
  - rewrite !reportFields_app. destruct (reportFields pre p kv); [done|].
    simpl. by rewrite Hstep.
Qed.

(** C10. When the rules of a document evaluate to a non-empty record,
    the reported record holds, at each of the five metadata keys, the
    value taken from the document, whatever a rule wrote there. *)
Theorem metadata_overwrites_rule_values c p kv (k v : string) :
  reportFields (rules c) p ∅ = inr kv ->
  kv !! k = Some v ->
  k ∈ metadataKeys ->
  exists record,
    reportResource c p = ([EvReport [] record], inr tt) /\
    record !! k = injectMetadata p ∅ !! k /\
    record !! kubeResourceKindKey
      = Some (GroupVersionKind.Kind (GetGroupVersionKind p)) /\
    record !! kubeResourceGroupKey
      = Some (GroupVersionKind.Group (GetGroupVersionKind p)) /\
    record !! kubeResourceVersionKey
      = Some (GroupVersionKind.Version (GetGroupVersionKind p)) /\
    record !! kubeResourceNamespaceKey = Some (GetNamespace p) /\
    record !! kubeResourceNameKey = Some (GetName p).
Proof.
  intros Hall Hkv Hk.
  assert (Hne : kv <> ∅) by (intros ->; by rewrite lookup_empty in Hkv).
  exists (injectMetadata p kv). split; [|split].
  - rewrite <- (finalRecord_nonempty _ _ Hne). by apply reportResource_ok.
  - by apply injectMetadata_same_at_keys.
  - apply injectMetadata_lookups.
Qed.
End Rules.

(** ** The properties on the small cluster *)
Section OnTheFixture.
Import Fixture.
#[local] Existing Instance flat.

Local Abbreviation rules c := (KubernetesResource.Report (kubeResource c)).

(** A listed pod on which the only rule finds nothing is passed to
    [c.report] with an empty record. *)
Example empty_record_is_passed_to_report :
  let c := checkOf [nginx] (pods "list" "" [jsonQuery "metadata.labels.app" "" ""]) in
  reportFields (rules c) nginx ∅ = inr ∅ /\
  Run c = ([EvList podsAPI; EvReport [] ∅], inr tt).
Proof. split; reflexivity. Qed.

Lemma Run_aborts_at_first_failing_document_witness :
  let c := checkOf [nginx; broken; redis] (pods "list" "" [jsonQuery "status.phase" "" ""]) in
  Run c = ([EvList podsAPI;
            EvReport [] (finalRecord nginx {[ "status.phase" := "baz" ]})],
           inl phaseError) /\
  length (reportCalls (trace (Run c))) = 1.
Proof.
  intros c.
  destruct (Run_aborts_at_first_failing_document c [EvList podsAPI]
              [nginx] [redis] broken [{[ "status.phase" := "baz" ]}] phaseError)
    as (Hrun & _ & Hlen & _).
  - reflexivity.
  - repeat constructor.
  - reflexivity.
  - split; [exact Hrun | exact Hlen].
Defined.

Lemma Run_unknown_verb_witness :
  let c := checkOf [nginx] (pods "watch" "" [jsonQuery "status.phase" "" ""]) in
  Run c = ([], inr tt).
Proof.
  intros c. destruct (Run_unknown_verb c) as (_ & Hrun & _); [done | done |].
  exact Hrun.
Defined.

Lemma resolving_rule_is_reported_witness :
  let c := checkOf [nginx] (pods "get" "nginx" [jsonQuery "status.phase" "foo" "bar"]) in
  exists record,
    reportResource c nginx = ([EvReport [] record], inr tt) /\
    record !! "foo" = Some "bar" /\
    record !! "kube_resource_kind" = Some "Pod" /\
    record !! "kube_resource_group" = Some "" /\
    record !! "kube_resource_version" = Some "v1" /\
    record !! "kube_resource_namespace" = Some "default" /\
    record !! "kube_resource_name" = Some "nginx".
Proof.
  intros c.
  destruct (resolving_rule_is_reported c nginx [] []
              (jsonQuery "status.phase" "foo" "bar") "baz" {[ "foo" := "bar" ]})
    as (_ & _ & _ & _ & record & Hrep & H1 & H2 & H3 & H4 & H5 & Hpair);
    [reflexivity | reflexivity | reflexivity | reflexivity |].
  exists record. split; [exact Hrep|]. split.
  - apply Hpair; [constructor|]. apply not_metadata_key. reflexivity.
  - exact (conj H1 (conj H2 (conj H3 (conj H4 H5)))).
Defined.

Lemma Run_get_without_resource_name_witness :
  let c := checkOf [nginx] (pods "get" "" [jsonQuery "status.phase" "" ""]) in
  Run c = ([], inl (ErrGetWithoutResourceName "rule-1")).
Proof.
  intros c. destruct (Run_get_without_resource_name c) as (Hrun & _);
    [reflexivity | reflexivity |].
  exact Hrun.
Defined.

Lemma construction_validates_kind_and_verb_witness :
  (exists e, newKubeapiserverCheck rule1
               (KubernetesResource.Build "" "apps" "v1" "" (APIRequest.Build "list" "") [])
               (serving []) = inl e /\ errorClass e = ConfigurationError) /\
  (exists e, newKubeapiserverCheck rule1
               (KubernetesResource.Build "pods" "" "" "" (APIRequest.Build "" "nginx") [])
               (serving []) = inl e /\ errorClass e = ConfigurationError) /\
  (exists c, newKubeapiserverCheck rule1
               (KubernetesResource.Build "pods" "" "" "kube-system"
                  (APIRequest.Build "get" "") [])
               (serving []) = inr c).
Proof.
  split; [|split].
  - destruct (construction_validates_kind_and_verb rule1
                (KubernetesResource.Build "" "apps" "v1" "" (APIRequest.Build "list" "") [])
                (serving [])) as (Hkind & _ & _).
    apply Hkind. reflexivity.
  - destruct (construction_validates_kind_and_verb rule1
                (KubernetesResource.Build "pods" "" "" "" (APIRequest.Build "" "nginx") [])
                (serving [])) as (_ & Hverb & _).
    apply Hverb. reflexivity.
  - destruct (construction_validates_kind_and_verb rule1
                (KubernetesResource.Build "pods" "" "" "kube-system"
                   (APIRequest.Build "get" "") [])
                (serving [])) as (_ & _ & Hboth).
    apply Hboth; discriminate.
Defined.

Lemma construction_defaults_version_witness :
  exists c,
    newKubeapiserverCheck rule1
      (KubernetesResource.Build "pods" "" "" "" (APIRequest.Build "list" "") [])
      (serving []) = inr c /\
    KubernetesResource.Version (kubeResource c) = "v1".
Proof.
  destruct (construction_defaults_version rule1
              (KubernetesResource.Build "pods" "" "" "" (APIRequest.Build "list" "") [])
              (serving [])) as (c & Hc & Hv & _); [done | done |].
  exists c. split; [exact Hc | by apply Hv].
Defined.

Lemma unsupported_rule_fails_at_evaluation_witness :
  exists c,
    newKubeapiserverCheck rule1
      (pods "list" "" [jsonQuery "status.phase" "" "";
                       ReportedField.Build "spec.nodeName" "attribute" "" ""])
      (serving [nginx]) = inr c /\
    reportResource c nginx = ([], inl (ErrUnsupportedKind "attribute")).
Proof.
  destruct (unsupported_rule_fails_at_evaluation rule1
              (pods "list" "" [jsonQuery "status.phase" "" "";
                               ReportedField.Build "spec.nodeName" "attribute" "" ""])
              (serving [nginx]) [jsonQuery "status.phase" "" ""] []
              (ReportedField.Build "spec.nodeName" "attribute" "" ""))
    as (c & Hc & _ & _ & _ & Hrep & _); [done | done | reflexivity | done |].
  exists c. split; [exact Hc|].
  apply (Hrep nginx {[ "status.phase" := "baz" ]}). reflexivity.
Defined.

Lemma not_found_rule_is_skipped_witness :
  reportFields [jsonQuery "metadata.labels.app" "" ""; jsonQuery "status.phase" "" ""]
    nginx ∅
  = reportFields [jsonQuery "status.phase" "" ""] nginx ∅.
Proof.
  destruct (not_found_rule_is_skipped (E := flat) [] [jsonQuery "status.phase" "" ""]
              (jsonQuery "metadata.labels.app" "" "") nginx "" ∅)
    as (_ & Hskip & _); [reflexivity | reflexivity |].
  exact Hskip.
Defined.

Lemma metadata_overwrites_rule_values_witness :
  let c := checkOf [nginx]
             (pods "list" "" [jsonQuery "status.phase" "kube_resource_name" ""]) in
  reportFields (rules c) nginx ∅ = inr {[ "kube_resource_name" := "baz" ]} /\
  exists record,
    reportResource c nginx = ([EvReport [] record], inr tt) /\
    record !! "kube_resource_name" = Some "nginx".
Proof.
  intros c. split; [reflexivity|].
  destruct (metadata_overwrites_rule_values c nginx
              {[ "kube_resource_name" := "baz" ]} "kube_resource_name" "baz")
    as (record & Hrep & _ & _ & _ & _ & _ & Hname).
  - reflexivity.
  - reflexivity.
  - unfold metadataKeys. do 4 apply list_elem_of_further. apply list_elem_of_here.
  - exists record. split; [exact Hrep | exact Hname].
Defined.

(** The scenario of a pod fetched by name, with the version left out of
    the declaration. *)
Example nginx_image_is_reported :
  exists c,
    newKubeapiserverCheck rule1
      (KubernetesResource.Build "pods" "" "" ""
         (APIRequest.Build "get" "nginx") [jsonQuery "spec.containers.0.image" "" ""])
      (serving [nginx; redis]) = inr c /\
    Run c =
      ([EvGet podsAPI "nginx";
        EvReport [] (<[ "kube_resource_name" := "nginx" ]>
                     (<[ "kube_resource_namespace" := "default" ]>
                     (<[ "kube_resource_version" := "v1" ]>
                     (<[ "kube_resource_group" := "" ]>
                     (<[ "kube_resource_kind" := "Pod" ]>
                      {[ "spec.containers.0.image" := "nginx:1.21" ]})))))],
       inr tt).
Proof. eexists. split; reflexivity. Qed.
End OnTheFixture.

(** ** The rest of the behaviour of [Run] and [reportResource] *)
Section Shape.
Context `{E : Externals}.
Implicit Types (c : kubeApiserverCheck) (p d : Unstructured).
Implicit Types (kv : gmap string string) (field : ReportedField.t).

Local Abbreviation rules c := (KubernetesResource.Report (kubeResource c)).
Local Abbreviation verb c := (APIRequest.Verb (KubernetesResource.APIRequest (kubeResource c))).
Local Abbreviation resourceName c :=
  (APIRequest.ResourceName (KubernetesResource.APIRequest (kubeResource c))).

(** What a rule that does not fail has done. *)
Lemma reportField_inr_inv field p kv kv' :
  reportField field p kv = inr kv' ->
  ReportedField.Kind field = PropertyKindJSONQuery /\
  ((exists v, RunSingleOutput (ReportedField.Property field) (Object p) = (v, false, None)
              /\ kv' = kv) \/
   (exists v, RunSingleOutput (ReportedField.Property field) (Object p) = (v, true, None)
              /\ kv' = <[reportName field := reportValue field v]> kv)).
Proof.
  unfold reportField.
  destruct (String.eqb _ _) eqn:Hk; [|done]. apply String.eqb_eq in Hk.
  destruct (RunSingleOutput _ _) as [[v found] [err|]].
  - by destruct found.
  - destruct found; intros [= <-]; (split; [done|]).
    + right. by exists v.
    + left. by exists v.
Qed.

Lemma reportFields_keys (fields : list ReportedField.t) p kv kv' (k : string) :
  reportFields fields p kv = inr kv' ->
  is_Some (kv' !! k) ->
  is_Some (kv !! k) \/
  exists f, f ∈ fields /\ ReportedField.Kind f = PropertyKindJSONQuery /\ reportName f = k.
Proof.
  revert kv. induction fields as [|f fs IH]; intros kv; simpl.
  - intros [= <-]. by left.
  - destruct (reportField f p kv) as [e|kv1] eqn:Hf; [done|].
    intros Hrest Hk. apply reportField_inr_inv in Hf as [Hkind Hf].
    destruct (IH _ Hrest Hk) as [Hk1|(f' & Hin & Hkind' & Hname)].
    + destruct Hf as [(v & _ & ->)|(v & _ & ->)]; [by left|].
      destruct (decide (reportName f = k)) as [Heq|Hne].
      * right. exists f. split; [apply list_elem_of_here|done].
      * left. by rewrite lookup_insert_ne in Hk1.
    + right. exists f'. split; [by apply list_elem_of_further|done].
Qed.

Lemma reportFields_size (fields : list ReportedField.t) p kv kv' :
  reportFields fields p kv = inr kv' -> size kv' <= size kv + length fields.
Proof.
  revert kv. induction fields as [|f fs IH]; intros kv; simpl.
  - intros [= <-]. lia.
  - destruct (reportField f p kv) as [e|kv1] eqn:Hf; [done|].
    intros Hrest. apply IH in Hrest.
    apply reportField_inr_inv in Hf as [_ [(v & _ & ->)|(v & _ & ->)]]; [lia|].
    rewrite map_size_insert in Hrest.
    destruct (kv !! reportName f); simpl in Hrest; lia.
Qed.

Lemma injectMetadata_size p kv : size (injectMetadata p kv) <= size kv + 5.
Proof.
  unfold injectMetadata. rewrite !map_size_insert.
  repeat match goal with
         | |- context [match ?m !! ?k with _ => _ end] => destruct (m !! k); simpl
         end; lia.
Qed.

Lemma finalRecord_size p kv : size (finalRecord p kv) <= size kv + 5.
Proof.
  unfold finalRecord. destruct (Nat.ltb 0 (size kv)); [apply injectMetadata_size|lia].
Qed.

Lemma finalRecord_other p kv (k : string) :
  k ∉ metadataKeys -> finalRecord p kv !! k = kv !! k.
Proof.
  intros Hk. unfold finalRecord.
  destruct (Nat.ltb 0 (size kv)); [by apply injectMetadata_other|done].
Qed.

Lemma finalRecord_cases p kv :
  (kv = ∅ /\ finalRecord p kv = ∅) \/ (kv <> ∅ /\ finalRecord p kv = injectMetadata p kv).
Proof.
  destruct (decide (kv = ∅)) as [->|Hne].
  - left. split; [done|apply finalRecord_empty].
  - right. split; [done|by apply finalRecord_nonempty].
Qed.

Lemma reportCalls_map (records : list (gmap string string)) :
  reportCalls (map (EvReport []) records) = records.
Proof.
  induction records as [|r rs IH]; [done|].
  change (r :: reportCalls (map (EvReport []) rs) = r :: rs). by rewrite IH.
Qed.

Lemma apiCalls_map (records : list (gmap string string)) :
  apiCalls (map (EvReport []) records) = [].
Proof.
  induction records as [|r rs IH]; [done|].
  change (apiCalls (map (EvReport []) rs) = []). exact IH.
Qed.

Lemma apiCalls_app (t1 t2 : list event) : apiCalls (t1 ++ t2) = apiCalls t1 ++ apiCalls t2.
Proof. apply omap_app. Qed.

(** The loop over the documents: one report per document, in order, up
    to the first document whose rules fail. *)
Lemma reportResources_shape c (ps : list Unstructured) :
  exists records : list (gmap string string),
    trace (reportResources c ps) = map (EvReport []) records /\
    Forall (fun r => exists p kv, p ∈ ps /\ reportFields (rules c) p ∅ = inr kv /\
                                  r = finalRecord p kv) records /\
    ((outcome (reportResources c ps) = inr tt /\ length records = length ps) \/
     (exists e, outcome (reportResources c ps) = inl e /\ length records < length ps)).
Proof.
  induction ps as [|p ps (records & Ht & Hall & Hout)]; cbn [reportResources].
  - exists []. split; [done|]. split; [constructor|]. by left.
  - destruct (reportFields (rules c) p ∅) as [e|kv] eqn:Hp.
    + rewrite (reportResource_error _ _ _ Hp), bind_error.
      exists []. split; [done|]. split; [constructor|].
      right. exists e. split; [done|]. simpl. lia.
    + rewrite (reportResource_ok _ _ _ Hp), bind_ok. cbn [trace outcome fst snd] in *.
      exists (finalRecord p kv :: records). split; [by rewrite Ht|]. split.
      * constructor.
        -- exists p, kv. split; [apply list_elem_of_here|done].
        -- eapply Forall_impl; [exact Hall|].
           intros r (p' & kv' & Hin & Hq & ->). exists p', kv'.
           split; [by apply list_elem_of_further|done].
      * destruct Hout as [[Ho Hl]|(e & Ho & Hl)].
        -- left. split; [done|]. simpl. lia.
        -- right. exists e. split; [done|]. simpl. lia.
Qed.

(** The query: at most one call, to the resource reference of the check. *)
Lemma fetchResources_shape c :
  reportCalls (trace (fetchResources c)) = [] /\
  apiCalls (trace (fetchResources c)) = trace (fetchResources c) /\
  (trace (fetchResources c) = [] \/
   trace (fetchResources c) = [EvGet (resourceAPI c) (resourceName c)] \/
   trace (fetchResources c) = [EvList (resourceAPI c)]).
Proof.
  split; [apply fetchResources_no_report|].
  unfold fetchResources.
  destruct (String.eqb _ "get").
  - destruct (Nat.eqb _ 0); [split; [done|by left]|].
    unfold emit. rewrite bind_ok.
    destruct (Get _ _ _); (split; [done|right; by left]).
  - destruct (String.eqb _ "list"); [|split; [done|by left]].
    unfold emit. rewrite bind_ok.
    destruct (List _ _); (split; [done|right; by right]).
Qed.

Lemma Run_after_fetch c (t0 : list event) (docs : list Unstructured) :
  fetchResources c = (t0, inr docs) ->
  Run c = (t0 ++ trace (reportResources c docs), outcome (reportResources c docs)).
Proof. intros Hq. unfold Run. by rewrite Hq, bind_ok. Qed.

Lemma Run_fetch_failed c (t0 : list event) (e : error) :
  fetchResources c = (t0, inl e) -> Run c = (t0, inl e).
Proof. intros Hq. unfold Run. by rewrite Hq. Qed.

(** Every record [Run] reports is the final record of a document. *)
Lemma Run_reports_inv c (P : gmap string string -> Prop) :
  (forall p kv, reportFields (rules c) p ∅ = inr kv -> P (finalRecord p kv)) ->
  Forall P (reportCalls (trace (Run c))).
Proof.
  intros HP. destruct (fetchResources_shape c) as (Hnone & _ & _).
  destruct (fetchResources c) as [t0 [e|docs]] eqn:Hq.
  - rewrite (Run_fetch_failed _ _ _ Hq). cbn [trace fst] in *. rewrite Hnone. constructor.
  - rewrite (Run_after_fetch _ _ _ Hq). cbn [trace fst] in *.
    destruct (reportResources_shape c docs) as (records & Ht & Hall & _).
    cbn [trace fst] in Ht.
    rewrite reportCalls_app, Hnone, Ht, reportCalls_map. simpl.
    eapply Forall_impl; [exact Hall|].
    intros r (p & kv & _ & Hkv & ->). by apply HP.
Qed.
End Shape.

Section Coverage.
Context `{E : Externals}.
Implicit Types (c : kubeApiserverCheck) (p d : Unstructured).
Implicit Types (kv : gmap string string) (field : ReportedField.t).
Implicit Types (b : baseCheck) (r : KubernetesResource.t) (k : kubeClient).

Local Abbreviation rules c := (KubernetesResource.Report (kubeResource c)).
Local Abbreviation verb c := (APIRequest.Verb (KubernetesResource.APIRequest (kubeResource c))).
Local Abbreviation resourceName c :=
  (APIRequest.ResourceName (KubernetesResource.APIRequest (kubeResource c))).
Local Abbreviation namespaceOf c := (KubernetesResource.Namespace (kubeResource c)).

Lemma Run_reports_after_fetch c (t0 : list event) (docs : list Unstructured) :
  fetchResources c = (t0, inr docs) ->
  exists records : list (gmap string string),
    trace (Run c) = t0 ++ map (EvReport []) records /\
    reportCalls (trace (Run c)) = records /\
    Forall (fun record => exists p kv,
              p ∈ docs /\ reportFields (rules c) p ∅ = inr kv /\
              record = finalRecord p kv) records /\
    ((outcome (Run c) = inr tt /\ length records = length docs) \/
     (exists e, outcome (Run c) = inl e /\ length records < length docs)).
Proof.
  intros Hq. destruct (fetchResources_shape c) as (Hnone & _ & _).
  rewrite Hq in Hnone. cbn [trace fst] in Hnone.
  destruct (reportResources_shape c docs) as (records & Ht & Hall & Hout).
  exists records. rewrite (Run_after_fetch _ _ _ Hq). cbn [trace outcome fst snd] in *.
  rewrite Ht. split; [done|]. split; [|done].
  by rewrite reportCalls_app, Hnone, reportCalls_map.
Qed.

Lemma Run_apiCalls c : apiCalls (trace (Run c)) = trace (fetchResources c).
Proof.
  destruct (fetchResources_shape c) as (_ & Hapi & _).
  destruct (fetchResources c) as [t0 [e|docs]] eqn:Hq; cbn [trace fst] in Hapi.
  - by rewrite (Run_fetch_failed _ _ _ Hq).
  - destruct (Run_reports_after_fetch _ _ _ Hq) as (records & -> & _).
    by rewrite apiCalls_app, Hapi, apiCalls_map, app_nil_r.
Qed.

Lemma newKubeapiserverCheck_inr_inv b r k c :
  newKubeapiserverCheck b r k = inr c ->
  KubernetesResource.Kind r <> "" /\
  APIRequest.Verb (KubernetesResource.APIRequest r) <> "" /\
  c = {| base := b; client := k;
         kubeResource :=
           if Nat.eqb (String.length (KubernetesResource.Version r)) 0
           then KubernetesResource.setVersion "v1" r else r |}.
Proof.
  unfold newKubeapiserverCheck.
  destruct (Nat.eqb (String.length (KubernetesResource.Kind r)) 0) eqn:Hk; [done|].
  destruct (Nat.eqb (String.length (APIRequest.Verb _)) 0) eqn:Hv; [done|].
  intros Hc. split; [|split].
  - intros Hempty. by rewrite Hempty in Hk.
  - intros Hempty. by rewrite Hempty in Hv.
  - revert Hc.
    destruct (Nat.eqb (String.length (KubernetesResource.Version r)) 0);
      by intros [= <-].
Qed.

(** X1. With verb ["get"] and a resource name, a failing fetch ends [Run]
    with a [QueryError] that carries the resource, the namespace, the name
    and the cause; the fetch is the only call made. *)
Theorem Run_get_failure c (err : string) :
  verb c = "get" -> resourceName c <> "" ->
  Get (client c) (resourceAPI c) (resourceName c) = inl err ->
  Run c = ([EvGet (resourceAPI c) (resourceName c)],
           inl (ErrGet (resourceSchema (resourceAPI c)) (namespaceOf c)
                  (resourceName c) err)) /\
  errorClass (ErrGet (resourceSchema (resourceAPI c)) (namespaceOf c)
                (resourceName c) err) = QueryError /\
  reportCalls (trace (Run c)) = [].
Proof.
  intros Hv Hn Hget.
  assert (Hq : fetchResources c =
            ([EvGet (resourceAPI c) (resourceName c)],
             inl (ErrGet (resourceSchema (resourceAPI c)) (namespaceOf c)
                    (resourceName c) err))).
  { unfold fetchResources. rewrite Hv, (length_eqb_nonzero _ Hn). cbn [String.eqb Ascii.eqb Bool.eqb].
    unfold emit. rewrite bind_ok, Hget. done. }
  by rewrite (Run_fetch_failed _ _ _ Hq).
Qed.

(** X2. With verb ["list"], a failing listing ends [Run] with a
    [QueryError]; the listing is the only call made. *)
Theorem Run_list_failure c (err : string) :
  verb c = "list" ->
  List (client c) (resourceAPI c) = inl err ->
  Run c = ([EvList (resourceAPI c)],
           inl (ErrList (resourceSchema (resourceAPI c)) (namespaceOf c)
                  (resourceName c) err)) /\
  errorClass (ErrList (resourceSchema (resourceAPI c)) (namespaceOf c)
                (resourceName c) err) = QueryError /\
  reportCalls (trace (Run c)) = [].
Proof.
  intros Hv Hlist.
  assert (Hq : fetchResources c =
            ([EvList (resourceAPI c)],
             inl (ErrList (resourceSchema (resourceAPI c)) (namespaceOf c)
                    (resourceName c) err))).
  { unfold fetchResources. rewrite Hv. cbn [String.eqb Ascii.eqb Bool.eqb].
    unfold emit. rewrite bind_ok, Hlist. done. }
  by rewrite (Run_fetch_failed _ _ _ Hq).
Qed.

(** X3. With verb ["get"] and a resource name, a fetch that succeeds is
    followed by the work on the fetched document alone: one report when
    its rules evaluate, none and their error when they fail. *)
Theorem Run_get_success c d :
  verb c = "get" -> resourceName c <> "" ->
  Get (client c) (resourceAPI c) (resourceName c) = inr d ->
  Run c = (EvGet (resourceAPI c) (resourceName c) :: trace (reportResource c d),
           outcome (reportResource c d)) /\
  (forall kv, reportFields (rules c) d ∅ = inr kv ->
     Run c = ([EvGet (resourceAPI c) (resourceName c); EvReport [] (finalRecord d kv)],
              inr tt)) /\
  (forall e, reportFields (rules c) d ∅ = inl e ->
     Run c = ([EvGet (resourceAPI c) (resourceName c)], inl e)).
Proof.
  intros Hv Hn Hget.
  assert (Hq : fetchResources c = ([EvGet (resourceAPI c) (resourceName c)], inr [d])).
  { unfold fetchResources. rewrite Hv, (length_eqb_nonzero _ Hn). cbn [String.eqb Ascii.eqb Bool.eqb].
    unfold emit. rewrite bind_ok, Hget. done. }
  assert (Hrun : Run c = (EvGet (resourceAPI c) (resourceName c) :: trace (reportResource c d),
                          outcome (reportResource c d))).
  { rewrite (Run_after_fetch _ _ _ Hq). cbn [reportResources].
    destruct (reportResource c d) as [t [e|[]]]; [done|].
    rewrite bind_ok. cbn [trace outcome fst snd ret]. by rewrite app_nil_r. }
  split; [done|]. split.
  - intros kv Hkv. by rewrite Hrun, (reportResource_ok _ _ _ Hkv).
  - intros e He. by rewrite Hrun, (reportResource_error _ _ _ He).
Qed.

(** X4. With verb ["list"], when the rules evaluate on every listed
    document, [Run] succeeds after one listing and one report per
    document, in the order of the listing; the resource name plays no
    part, and an empty listing gives no report. *)
Theorem Run_list_success c (docs : list Unstructured) (kvs : list (gmap string string)) :
  verb c = "list" ->
  List (client c) (resourceAPI c) = inr docs ->
  Forall2 (fun p kv => reportFields (rules c) p ∅ = inr kv) docs kvs ->
  Run c = (EvList (resourceAPI c)
             :: zip_with (fun p kv => EvReport [] (finalRecord p kv)) docs kvs,
           inr tt) /\
  reportCalls (trace (Run c)) = zip_with finalRecord docs kvs /\
  length (reportCalls (trace (Run c))) = length docs.
Proof.
  intros Hv Hlist Hall.
  assert (Hq : fetchResources c = ([EvList (resourceAPI c)], inr docs)).
  { unfold fetchResources. rewrite Hv. cbn [String.eqb Ascii.eqb Bool.eqb].
    unfold emit. rewrite bind_ok, Hlist. done. }
  assert (Hrun : Run c = (EvList (resourceAPI c)
             :: zip_with (fun p kv => EvReport [] (finalRecord p kv)) docs kvs, inr tt)).
  { rewrite (Run_after_fetch _ _ _ Hq), (reportResources_all_ok _ _ _ Hall). done. }
  rewrite Hrun. cbn [trace fst]. split; [done|].
  change (EvList (resourceAPI c) :: ?t) with ([EvList (resourceAPI c)] ++ t).
  rewrite reportCalls_app, reportCalls_reports. simpl. split; [done|].
  rewrite length_zip_with. apply Forall2_length in Hall. lia.
Qed.

(** X5. Whatever the check and the cluster, the calls of [Run] are at
    most one API call, made first and addressed to the resource reference
    of the check, followed only by reports, each with no tags. *)
Theorem Run_trace_shape c :
  exists (calls : list event) (records : list (gmap string string)),
    trace (Run c) = calls ++ map (EvReport []) records /\
    apiCalls (trace (Run c)) = calls /\
    reportCalls (trace (Run c)) = records /\
    (calls = [] \/
     calls = [EvGet (resourceAPI c) (resourceName c)] \/
     calls = [EvList (resourceAPI c)]).
Proof.
  destruct (fetchResources_shape c) as (Hnone & Hapi & Hcalls).
  exists (trace (fetchResources c)).
  destruct (fetchResources c) as [t0 [e|docs]] eqn:Hq; cbn [trace fst] in *.
  - exists []. rewrite (Run_fetch_failed _ _ _ Hq). cbn [trace fst map].
    rewrite app_nil_r. done.
  - destruct (Run_reports_after_fetch _ _ _ Hq) as (records & Ht & Hr & _).
    exists records. split; [done|]. split; [|done].
    by rewrite Run_apiCalls, Hq.
Qed.

(** X6. Once the query has returned its documents, [Run] reports at most
    one record per document, and it succeeds exactly when it has reported
    as many records as there are documents. *)
Theorem Run_report_count c (t0 : list event) (docs : list Unstructured) :
  fetchResources c = (t0, inr docs) ->
  length (reportCalls (trace (Run c))) <= length docs /\
  (outcome (Run c) = inr tt <-> length (reportCalls (trace (Run c))) = length docs).
Proof.
  intros Hq. destruct (Run_reports_after_fetch _ _ _ Hq) as (records & _ & -> & _ & Hout).
  destruct Hout as [[Ho Hl]|(e & Ho & Hl)].
  - split; [lia|]. by split.
  - split; [lia|]. rewrite Ho. split; [done|lia].
Qed.

(** X7. Every record [Run] reports is the final record of one of the
    documents the query returned, assembled by the rules of the check
    without error. *)
Theorem Run_reports_come_from_documents c (t0 : list event) (docs : list Unstructured) :
  fetchResources c = (t0, inr docs) ->
  Forall (fun record => exists p kv,
            p ∈ docs /\ reportFields (rules c) p ∅ = inr kv /\ record = finalRecord p kv)
         (reportCalls (trace (Run c))).
Proof.
  intros Hq. by destruct (Run_reports_after_fetch _ _ _ Hq) as (records & _ & -> & Hall & _).
Qed.
End Coverage.

Section Records.
Context `{E : Externals}.
Implicit Types (c : kubeApiserverCheck) (p d : Unstructured).
Implicit Types (kv : gmap string string) (field : ReportedField.t).

Local Abbreviation rules c := (KubernetesResource.Report (kubeResource c)).

(** X8. A record that [Run] reports is either empty or carries all five
    metadata keys, with the kind, group, version, namespace and name of
    one document; the keys are never injected in part. *)
Theorem reported_record_all_or_nothing c :
  Forall (fun record =>
            record = ∅ \/
            exists p,
              record !! kubeResourceKindKey
                = Some (GroupVersionKind.Kind (GetGroupVersionKind p)) /\
              record !! kubeResourceGroupKey
                = Some (GroupVersionKind.Group (GetGroupVersionKind p)) /\
              record !! kubeResourceVersionKey
                = Some (GroupVersionKind.Version (GetGroupVersionKind p)) /\
              record !! kubeResourceNamespaceKey = Some (GetNamespace p) /\
              record !! kubeResourceNameKey = Some (GetName p))
         (reportCalls (trace (Run c))).
Proof.
  apply Run_reports_inv. intros p kv _.
  destruct (finalRecord_cases p kv) as [[_ ->]|[_ ->]]; [by left|].
  right. exists p. apply injectMetadata_lookups.
Qed.

(** X9. Every key of a record that [Run] reports is one of the five
    metadata keys or the output key of a [jsonQuery] rule of the check:
    [As] when set, [Property] otherwise. *)
Theorem reported_keys_are_configured c :
  Forall (fun record =>
            forall key : string, is_Some (record !! key) ->
              key ∈ metadataKeys \/
              exists f, f ∈ rules c /\
                        ReportedField.Kind f = PropertyKindJSONQuery /\
                        reportName f = key)
         (reportCalls (trace (Run c))).
Proof.
  apply Run_reports_inv. intros p kv Hkv key Hkey.
  destruct (decide (key ∈ metadataKeys)) as [Hin|Hout]; [by left|].
  right. rewrite finalRecord_other in Hkey by done.
  destruct (reportFields_keys _ _ _ _ _ Hkv Hkey) as [Hempty|Hrule]; [|done].
  rewrite lookup_empty in Hempty. by destruct Hempty.
Qed.

(** X10. Starting from the empty record, the rules of a document end
    without error on the empty record exactly when every rule is a
    [jsonQuery] rule whose query evaluates and reports not-found. *)
Theorem empty_record_iff_nothing_found (fields : list ReportedField.t) p :
  reportFields fields p ∅ = inr ∅ <->
  Forall (fun f => ReportedField.Kind f = PropertyKindJSONQuery /\
            exists v, RunSingleOutput (ReportedField.Property f) (Object p)
                      = (v, false, None)) fields.
Proof.
  split; [|apply reportFields_all_not_found].
  induction fields as [|f fs IH]; simpl; [constructor|].
  destruct (reportField f p ∅) as [e|kv1] eqn:Hf; [done|].
  intros Hrest. apply reportField_inr_inv in Hf as [Hkind [(v & Hq & ->)|(v & Hq & ->)]].
  - constructor; [|by apply IH]. split; [done|by exists v].
  - assert (Hsome : is_Some ((∅ : gmap string string) !! reportName f)).
    { apply (reportFields_keeps_keys _ _ _ _ _ Hrest).
      rewrite lookup_insert_eq. by eexists. }
    rewrite lookup_empty in Hsome. by destruct Hsome.
Qed.

(** X11. When the rules before a [jsonQuery] rule evaluate and its query
    returns an error, the document is not reported and [reportResource]
    returns an [ExtractionError] with the property of the rule, the
    group, version, kind, namespace and name of the document and the
    cause; the found flag, [As] and [Value] play no part. *)
Theorem query_error_aborts_document c p (pre post : list ReportedField.t)
    field kv (v : string) (found : bool) (err : string) :
  rules c = pre ++ field :: post ->
  reportFields pre p ∅ = inr kv ->
  ReportedField.Kind field = PropertyKindJSONQuery ->
  RunSingleOutput (ReportedField.Property field) (Object p) = (v, found, Some err) ->
  reportResource c p =
    ([], inl (ErrJSONQuery (ReportedField.Property field) (GetGroupVersionKind p)
                (GetNamespace p) (GetName p) err)) /\
  errorClass (ErrJSONQuery (ReportedField.Property field) (GetGroupVersionKind p)
                (GetNamespace p) (GetName p) err) = ExtractionError.
Proof.
  intros Hrules Hpre Hkind Hq. split; [|done].
  apply reportResource_error.
  rewrite Hrules, reportFields_app, Hpre. simpl.
  by rewrite (reportField_query_error _ _ _ _ _ _ Hkind Hq).
Qed.

(** X15. A record that [Run] reports has at most one key per rule of the
    check and five more. *)
Theorem reported_record_size_bound c :
  Forall (fun record => size record <= length (rules c) + 5)
         (reportCalls (trace (Run c))).
Proof.
  apply Run_reports_inv. intros p kv Hkv.
  pose proof (reportFields_size _ _ _ _ Hkv) as Hsize.
  pose proof (finalRecord_size p kv) as Hfinal.
  rewrite map_size_empty in Hsize. lia.
Qed.
End Records.

Section Built.
Context `{E : Externals}.
Implicit Types (c : kubeApiserverCheck) (b : baseCheck).
Implicit Types (r : KubernetesResource.t) (k : kubeClient).

(** X12. A check that construction returns holds the declaration it was
    given in every field but the version, with kind and verb non-empty,
    and building a check again from the resource it holds returns the
    same check. *)
Theorem construction_keeps_declaration b r k c :
  newKubeapiserverCheck b r k = inr c ->
  base c = b /\ client c = k /\
  KubernetesResource.Kind (kubeResource c) = KubernetesResource.Kind r /\
  KubernetesResource.Group (kubeResource c) = KubernetesResource.Group r /\
  KubernetesResource.Namespace (kubeResource c) = KubernetesResource.Namespace r /\
  KubernetesResource.APIRequest (kubeResource c) = KubernetesResource.APIRequest r /\
  KubernetesResource.Report (kubeResource c) = KubernetesResource.Report r /\
  KubernetesResource.Kind (kubeResource c) <> "" /\
  APIRequest.Verb (KubernetesResource.APIRequest (kubeResource c)) <> "" /\
  newKubeapiserverCheck b (kubeResource c) k = inr c.
Proof.
  intros Hc. apply newKubeapiserverCheck_inr_inv in Hc as (Hk & Hv & ->).
  cbn [base client kubeResource].
  destruct (Nat.eqb (String.length (KubernetesResource.Version r)) 0) eqn:Hz.
  - repeat (split; [done|]).
    rewrite newKubeapiserverCheck_ok by done. done.
  - repeat (split; [done|]).
    rewrite newKubeapiserverCheck_ok by done. by rewrite Hz.
Qed.

(** X13. Construction fails only for an empty kind or an empty verb, and
    the kind is looked at first: the error names the kind when the kind
    is empty, the verb when only the verb is; either carries the rule
    identifier. *)
Theorem construction_failure_cases b r k (e : error) :
  newKubeapiserverCheck b r k = inl e ->
  (KubernetesResource.Kind r = "" /\ e = ErrResourceKindEmpty (ruleID b)) \/
  (KubernetesResource.Kind r <> "" /\
   APIRequest.Verb (KubernetesResource.APIRequest r) = "" /\
   e = ErrActionVerbEmpty (ruleID b)).
Proof.
  unfold newKubeapiserverCheck.
  destruct (Nat.eqb (String.length (KubernetesResource.Kind r)) 0) eqn:Hk.
  - intros [= <-]. left. split; [by apply length_eqb_zero|done].
  - destruct (Nat.eqb (String.length (APIRequest.Verb _)) 0) eqn:Hv.
    + intros [= <-]. right. split; [|split; [by apply length_eqb_zero|done]].
      intros Hempty. by rewrite Hempty in Hk.
    + by destruct (Nat.eqb (String.length (KubernetesResource.Version r)) 0).
Qed.

(** X14. Every API call that [Run] makes for a constructed check goes to
    the group and kind of the declaration, at its version, or at ["v1"]
    when the declaration has none, and is scoped to the namespace exactly
    when the declaration names one; version and resource are never
    empty. *)
Theorem constructed_check_addresses_declared_resource b r k c :
  newKubeapiserverCheck b r k = inr c ->
  resourceAPI c =
    {| resourceSchema :=
         {| GroupVersionResource.Group := KubernetesResource.Group r;
            GroupVersionResource.Version :=
              if decide (KubernetesResource.Version r = "") then "v1"
              else KubernetesResource.Version r;
            GroupVersionResource.Resource := KubernetesResource.Kind r |};
       scope := if decide (KubernetesResource.Namespace r = "") then None
                else Some (KubernetesResource.Namespace r) |} /\
  GroupVersionResource.Version (resourceSchema (resourceAPI c)) <> "" /\
  GroupVersionResource.Resource (resourceSchema (resourceAPI c)) <> "" /\
  Forall (fun ev =>
            ev = EvGet (resourceAPI c)
                   (APIRequest.ResourceName (KubernetesResource.APIRequest r)) \/
            ev = EvList (resourceAPI c))
         (apiCalls (trace (Run c))).
Proof.
  intros Hc. apply newKubeapiserverCheck_inr_inv in Hc as (Hk & Hv & ->).
  set (c := {| base := b; client := k; kubeResource := _ |}).
  assert (Hapi : resourceAPI c =
    {| resourceSchema :=
         {| GroupVersionResource.Group := KubernetesResource.Group r;
            GroupVersionResource.Version :=
              if decide (KubernetesResource.Version r = "") then "v1"
              else KubernetesResource.Version r;
            GroupVersionResource.Resource := KubernetesResource.Kind r |};
       scope := if decide (KubernetesResource.Namespace r = "") then None
                else Some (KubernetesResource.Namespace r) |}).
  { unfold resourceAPI, c. cbn [kubeResource].
    destruct r as [kind group version ns req report]. cbn.
    destruct version, ns; done. }
  assert (Hreq : APIRequest.ResourceName (KubernetesResource.APIRequest (kubeResource c))
                 = APIRequest.ResourceName (KubernetesResource.APIRequest r)).
  { unfold c. cbn [kubeResource]. by destruct (Nat.eqb _ 0). }
  split; [done|]. rewrite Hapi at 1 2. cbn. split; [|split; [done|]].
  - by destruct (decide (KubernetesResource.Version r = "")).
  - rewrite Run_apiCalls.
    destruct (fetchResources_shape c) as (_ & _ & [->|[->| ->]]).
    + constructor.
    + constructor; [|constructor]. left. by rewrite Hreq.
    + constructor; [|constructor]. by right.
Qed.
End Built.

Section Provenance.
Context `{E : Externals}.
Implicit Types (c : kubeApiserverCheck) (p : Unstructured).
Implicit Types (kv : gmap string string).

Local Abbreviation rules c := (KubernetesResource.Report (kubeResource c)).

Lemma reportFields_values (fields : list ReportedField.t) p kv kv' (key value : string) :
  reportFields fields p kv = inr kv' ->
  kv' !! key = Some value ->
  kv !! key = Some value \/
  exists f x, f ∈ fields /\ reportName f = key /\
              RunSingleOutput (ReportedField.Property f) (Object p) = (x, true, None) /\
              value = reportValue f x.
Proof.
  revert kv. induction fields as [|f fs IH]; intros kv; simpl.
  - intros [= <-]. by left.
  - destruct (reportField f p kv) as [e|kv1] eqn:Hf; [done|].
    intros Hrest Hkey. apply reportField_inr_inv in Hf as [_ Hf].
    destruct (IH _ Hrest Hkey) as [Hkv1|(f' & x & Hin & Hname & Hq & Hval)].
    + destruct Hf as [(x & _ & ->)|(x & Hq & ->)]; [by left|].
      destruct (decide (reportName f = key)) as [Heq|Hne].
      * right. exists f, x. rewrite Heq, lookup_insert_eq in Hkv1.
        split; [apply list_elem_of_here|]. split; [done|]. split; [done|]. congruence.
      * left. by rewrite lookup_insert_ne in Hkv1.
    + right. exists f', x. split; [by apply list_elem_of_further|done].
Qed.

(** X16. A record that [Run] reports is the final record of a document
    [p] that the query returned, and the value it holds under a key that
    is not a metadata key was written by a rule of the check with that
    output key whose query found a value on [p]: it is the [Value] of the
    rule when set, the value found on [p] otherwise. *)
Theorem reported_values_come_from_rules c :
  Forall (fun record =>
            exists p kv,
              (exists t0 docs, fetchResources c = (t0, inr docs) /\ p ∈ docs) /\
              reportFields (rules c) p ∅ = inr kv /\
              record = finalRecord p kv /\
              forall key value : string,
                record !! key = Some value -> key ∉ metadataKeys ->
                exists f x,
                  f ∈ rules c /\ reportName f = key /\
                  RunSingleOutput (ReportedField.Property f) (Object p) = (x, true, None) /\
                  value = (if decide (ReportedField.Value f = "") then x
                           else ReportedField.Value f))
         (reportCalls (trace (Run c))).
Proof.
  destruct (fetchResources c) as [t0 [e|docs]] eqn:Hq.
  - rewrite (Run_fetch_failed _ _ _ Hq). cbn [trace fst].
    pose proof (fetchResources_no_report c) as Hnone.
    rewrite Hq in Hnone. cbn [trace fst] in Hnone. rewrite Hnone. constructor.
  - destruct (Run_reports_after_fetch _ _ _ Hq) as (records & _ & -> & Hall & _).
    eapply Forall_impl; [exact Hall|].
    intros record (p & kv & Hin & Hkv & ->). exists p, kv.
    split; [by exists t0, docs|]. split; [done|]. split; [done|].
    intros key value Hkey Hmeta. rewrite finalRecord_other in Hkey by done.
    destruct (reportFields_values _ _ _ _ _ _ Hkv Hkey)
      as [Hempty|(f & x & Hf & Hn & Hx & ->)].
    + by rewrite lookup_empty in Hempty.
    + exists f, x. by rewrite <- reportValue_spec.
Qed.
End Provenance.

(** ** The rest of the behaviour on the small cluster *)
Section CoverageOnTheFixture.
Import Fixture.
#[local] Existing Instance flat.

Lemma Run_get_failure_witness :
  Run (refusedCheck (pods "get" "nginx" [jsonQuery "status.phase" "" ""]))
  = ([EvGet podsAPI "nginx"], inl (ErrGet podsGVR "" "nginx" "forbidden")).
Proof.
  destruct (Run_get_failure (E := flat)
              (refusedCheck (pods "get" "nginx" [jsonQuery "status.phase" "" ""]))
              "forbidden") as (Hrun & _); [reflexivity | discriminate | reflexivity |].
  exact Hrun.
Defined.

Lemma Run_list_failure_witness :
  Run (refusedCheck (pods "list" "" [jsonQuery "status.phase" "" ""]))
  = ([EvList podsAPI], inl (ErrList podsGVR "" "" "forbidden")).
Proof.
  destruct (Run_list_failure (E := flat)
              (refusedCheck (pods "list" "" [jsonQuery "status.phase" "" ""]))
              "forbidden") as (Hrun & _); [reflexivity | reflexivity |].
  exact Hrun.
Defined.

Lemma Run_get_success_witness :
  Run (checkOf [nginx; redis] (pods "get" "redis" [jsonQuery "status.phase" "" ""]))
  = ([EvGet podsAPI "redis";
      EvReport [] (finalRecord redis {[ "status.phase" := "Running" ]})], inr tt).
Proof.
  destruct (Run_get_success (E := flat)
              (checkOf [nginx; redis] (pods "get" "redis" [jsonQuery "status.phase" "" ""]))
              redis) as (_ & Hok & _); [reflexivity | discriminate | reflexivity |].
  apply (Hok {[ "status.phase" := "Running" ]}). reflexivity.
Defined.

Lemma Run_list_success_witness :
  Run (checkOf [nginx; redis] defaultPods)
  = ([EvList {| resourceSchema := podsGVR; scope := Some "default" |};
      EvReport [] (finalRecord nginx {[ "image" := "nginx:1.21" ]});
      EvReport [] (finalRecord redis {[ "image" := "redis:6" ]})], inr tt) /\
  length (reportCalls (trace (Run (checkOf [nginx; redis] defaultPods)))) = 2.
Proof.
  destruct (Run_list_success (E := flat) (checkOf [nginx; redis] defaultPods)
              [nginx; redis] [{[ "image" := "nginx:1.21" ]}; {[ "image" := "redis:6" ]}])
    as (Hrun & _ & Hlen); [reflexivity | reflexivity | repeat constructor |].
  split; [exact Hrun | exact Hlen].
Defined.

Lemma Run_report_count_witness :
  let c := checkOf [nginx; broken; redis] (pods "list" "" [jsonQuery "status.phase" "" ""]) in
  length (reportCalls (trace (Run c))) <= 3 /\
  (outcome (Run c) = inr tt <-> length (reportCalls (trace (Run c))) = 3).
Proof.
  intros c.
  apply (Run_report_count (E := flat) c [EvList podsAPI] [nginx; broken; redis]).
  reflexivity.
Defined.

Lemma Run_reports_come_from_documents_witness :
  let c := checkOf [nginx; broken; redis] (pods "list" "" [jsonQuery "status.phase" "" ""]) in
  Forall (fun record => exists p kv,
            p ∈ [nginx; broken; redis] /\
            reportFields (KubernetesResource.Report (kubeResource c)) p ∅ = inr kv /\
            record = finalRecord p kv)
         (reportCalls (trace (Run c))).
Proof.
  intros c.
  apply (Run_reports_come_from_documents (E := flat) c [EvList podsAPI]
           [nginx; broken; redis]).
  reflexivity.
Defined.

Lemma query_error_aborts_document_witness :
  let c := checkOf [broken]
             (pods "list" "" [jsonQuery "metadata.labels.app" "" "";
                              jsonQuery "status.phase" "phase" "x"]) in
  reportResource c broken = ([], inl phaseError).
Proof.
  intros c.
  destruct (query_error_aborts_document (E := flat) c broken
              [jsonQuery "metadata.labels.app" "" ""] []
              (jsonQuery "status.phase" "phase" "x") ∅ "" false "type mismatch")
    as (Hrep & _); [reflexivity | reflexivity | reflexivity | reflexivity |].
  exact Hrep.
Defined.

Lemma construction_keeps_declaration_witness :
  newKubeapiserverCheck rule1 systemPod (serving []) = inr systemPodCheck /\
  newKubeapiserverCheck rule1 (kubeResource systemPodCheck) (serving [])
    = inr systemPodCheck.
Proof.
  split; [reflexivity|].
  destruct (construction_keeps_declaration (E := flat) rule1 systemPod (serving [])
              systemPodCheck) as (_ & _ & _ & _ & _ & _ & _ & _ & _ & Hagain);
    [reflexivity|].
  exact Hagain.
Defined.

Lemma construction_failure_cases_witness :
  newKubeapiserverCheck rule1 nothingDeclared (serving [])
    = inl (ErrResourceKindEmpty "rule-1") /\
  (KubernetesResource.Kind nothingDeclared = "" /\
   ErrResourceKindEmpty "rule-1" = ErrResourceKindEmpty (ruleID rule1) \/
   KubernetesResource.Kind nothingDeclared <> "" /\
   APIRequest.Verb (KubernetesResource.APIRequest nothingDeclared) = "" /\
   ErrResourceKindEmpty "rule-1" = ErrActionVerbEmpty (ruleID rule1)).
Proof.
  split; [reflexivity|].
  apply (construction_failure_cases (E := flat) rule1 nothingDeclared (serving [])).
  reflexivity.
Defined.

Lemma constructed_check_addresses_declared_resource_witness :
  newKubeapiserverCheck rule1 deployments (serving []) = inr deploymentsCheck /\
  resourceAPI deploymentsCheck =
    {| resourceSchema := GroupVersionResource.Build "apps" "v1" "deployments";
       scope := Some "kube-system" |}.
Proof.
  split; [reflexivity|].
  destruct (constructed_check_addresses_declared_resource (E := flat) rule1 deployments
              (serving []) deploymentsCheck) as (Hapi & _); [reflexivity|].
  exact Hapi.
Defined.
End CoverageOnTheFixture.

(** ** The external reporter *)
Section Reporter.
Context `{E : Externals}.
Implicit Types (c : kubeApiserverCheck) (p : Unstructured).
Implicit Types (kv : gmap string string) (b : baseCheck).

Local Abbreviation rules c := (KubernetesResource.Report (kubeResource c)).

Lemma report_non_empty b (tags : list string) kv :
  Forall (fun call => call.2 <> ∅) (report b tags kv).
Proof.
  unfold report. destruct (Nat.ltb 0 (size kv)) eqn:Hs; [|constructor].
  constructor; [|constructor]. simpl. intros ->.
  by rewrite map_size_empty in Hs.
Qed.

Lemma report_empty b (tags : list string) : report b tags ∅ = [].
Proof. unfold report. by rewrite map_size_empty. Qed.

Lemma report_forwards b (tags : list string) kv :
  kv <> ∅ -> report b tags kv = [(tags, kv)].
Proof.
  intros Hne. unfold report. apply map_size_non_empty_iff in Hne.
  by destruct (size kv).
Qed.

Lemma reporterCalls_non_empty b (t : list event) :
  Forall (fun call => call.2 <> ∅) (reporterCalls b t).
Proof.
  unfold reporterCalls. induction t as [|ev t IH]; [constructor|].
  cbn [flat_map]. apply Forall_app. split; [|exact IH].
  destruct ev; try constructor. apply report_non_empty.
Qed.

(** C1. A document on which the rules evaluate without yielding a value
    is passed to [c.report] with an empty record, and no call to the
    external reporter is made for it; a document with a non-empty record
    gives one call, with the metadata injected. Every call that [Run]
    makes to the external reporter has a non-empty record. *)
Theorem empty_record_is_not_reported c :
  (forall p, reportFields (rules c) p ∅ = inr ∅ ->
     reportResource c p = ([EvReport [] ∅], inr tt) /\
     reporterCalls (base c) (trace (reportResource c p)) = []) /\
  (forall p kv, reportFields (rules c) p ∅ = inr kv -> kv <> ∅ ->
     reporterCalls (base c) (trace (reportResource c p))
       = [([], injectMetadata p kv)]) /\
  Forall (fun call => call.2 <> ∅) (reporterCalls (base c) (trace (Run c))).
Proof.
  split; [|split].
  - intros p Hp. rewrite (reportResource_ok _ _ _ Hp), finalRecord_empty.
    split; [done|]. cbn [trace fst reporterCalls flat_map].
    by rewrite report_empty.
  - intros p kv Hp Hne.
    rewrite (reportResource_ok _ _ _ Hp), (finalRecord_nonempty _ _ Hne).
    cbn [trace fst reporterCalls flat_map]. rewrite report_forwards, app_nil_r; [done|].
    intros Hempty.
    destruct (injectMetadata_lookups p kv) as (_ & _ & _ & _ & Hname).
    by rewrite Hempty, lookup_empty in Hname.
  - apply reporterCalls_non_empty.
Qed.
End Reporter.

Section ReporterOnTheFixture.
Import Fixture.
#[local] Existing Instance flat.

Lemma empty_record_is_not_reported_witness :
  let c := checkOf [nginx] (pods "list" "" [jsonQuery "metadata.labels.app" "" ""]) in
  reportResource c nginx = ([EvReport [] ∅], inr tt) /\
  reporterCalls (base c) (trace (reportResource c nginx)) = [] /\
  reporterCalls (base c) (trace (Run c)) = [].
Proof.
  intros c.
  destruct (empty_record_is_not_reported (E := flat) c) as (Hempty & _ & _).
  destruct (Hempty nginx) as (Hcall & Hnone); [reflexivity|].
  split; [exact Hcall|]. split; [exact Hnone | reflexivity].
Defined.
End ReporterOnTheFixture.
